(** * Event broker factory: [rasa/core/brokers/broker.py]

    A shallow embedding of the factory [EventBroker.create] and of the two
    module-level helpers it relies on, [_create_from_endpoint_config] and
    [_load_from_module_string], together with the properties of the factory.

    Python objects are modelled by the types the annotations of the module
    give them.  Code that lives in other modules (the four shipped brokers and
    [rasa.utils.common.class_from_module_path]) is taken as a parameter, the
    record [Externals]. *)

From Stdlib Require Import String Ascii List Bool Arith Lia.
Import ListNotations.
Open Scope string_scope.

(** ** Text *)

(** Text is a string of 8-bit characters; a Python [str] made of ASCII
    characters is that string itself.  [isascii] is [str.isascii]. *)
Definition isascii_char (c : ascii) : bool := (nat_of_ascii c <? 128)%nat.

Fixpoint isascii (s : string) : bool :=
  match s with
  | EmptyString => true
  | String c rest => isascii_char c && isascii rest
  end.

(** [str.lower] on ASCII text: the letters [A]-[Z] are moved to [a]-[z], every
    other character is left alone.  On text with [isascii s = true] this is
    [s.lower()]; beyond ASCII, [str.lower] follows the Unicode case mapping
    (the Kelvin sign becomes [k]) and this definition does not.  A string
    that lower-cases to an ASCII tag here is itself ASCII
    ([lower_to_ascii_is_ascii]); where a tag is only known not to match, the
    properties ask for an ASCII [type]. *)
Definition lower_ascii (c : ascii) : ascii :=
  let n := nat_of_ascii c in
  if ((65 <=? n) && (n <=? 90))%nat then ascii_of_nat (n + 32) else c.

Fixpoint lower (s : string) : string :=
  match s with
  | EmptyString => EmptyString
  | String c rest => String (lower_ascii c) (lower rest)
  end.

(** The upper-case counterpart, used to speak about "any letter casing". *)
Definition upper_ascii (c : ascii) : ascii :=
  let n := nat_of_ascii c in
  if ((97 <=? n) && (n <=? 122))%nat then ascii_of_nat (n - 32) else c.

(** [recase mask s] writes the characters of [s] selected by [mask] in upper
    case and leaves the others as they are. *)
Fixpoint recase (mask : list bool) (s : string) {struct s} : string :=
  match s, mask with
  | EmptyString, _ => EmptyString
  | String c rest, [] => String c rest
  | String c rest, b :: mask' =>
      String (if b then upper_ascii c else c) (recase mask' rest)
  end.

(** [sub in s] for strings. *)
Definition contains (sub s : string) : Prop :=
  exists before after, s = before ++ sub ++ after.

(** ** Exceptions *)

(** The exception classes that matter to the factory, and user-defined ones
    with their parent class. *)
Inductive ExcClass : Type :=
| BaseException
| Exception
| AttributeError
| ImportError
| ModuleNotFoundError
| RuntimeError
| NotImplementedError
| TypeError
| ValueError
| OSError
| UserDefined (name : string) (parent : ExcClass).

Fixpoint ExcClass_eqb (c d : ExcClass) : bool :=
  match c, d with
  | BaseException, BaseException
  | Exception, Exception
  | AttributeError, AttributeError
  | ImportError, ImportError
  | ModuleNotFoundError, ModuleNotFoundError
  | RuntimeError, RuntimeError
  | NotImplementedError, NotImplementedError
  | TypeError, TypeError
  | ValueError, ValueError
  | OSError, OSError => true
  | UserDefined n p, UserDefined m q => String.eqb n m && ExcClass_eqb p q
  | _, _ => false
  end.

(** Method resolution order of an exception class (single inheritance). *)
Fixpoint mro (c : ExcClass) : list ExcClass :=
  c :: match c with
       | BaseException => []
       | Exception => [BaseException]
       | AttributeError | ImportError | RuntimeError
       | TypeError | ValueError | OSError => [Exception; BaseException]
       | ModuleNotFoundError => [ImportError; Exception; BaseException]
       | NotImplementedError => [RuntimeError; Exception; BaseException]
       | UserDefined _ p => mro p
       end.

Definition issubclass (c d : ExcClass) : bool :=
  existsb (ExcClass_eqb d) (mro c).

(** A raised exception: its class and [str(e)]. *)
Record exn : Type := mkExn { exc_class : ExcClass; exc_str : string }.

(** [isinstance(e, (C1, ..., Cn))]. *)
Definition isinstance (e : exn) (classes : list ExcClass) : bool :=
  existsb (issubclass (exc_class e)) classes.

Inductive Result (A : Type) : Type :=
| Ok (a : A)
| Raise (e : exn).
Arguments Ok {A} a.
Arguments Raise {A} e.

(** ** Data *)

(** [rasa.utils.endpoints.EndpointConfig]: the factory reads [type] only; the
    other attributes are handed to the chosen adapter untouched. *)
Record EndpointConfig : Type := mkEndpointConfig {
  type : option string;
  url : option string;
  kwargs : list (string * string)
}.

(** An instance of [EventBroker] or of one of its subclasses: the name of its
    class and the identity of the object. *)
Record EventBroker : Type := mkEventBroker {
  broker_class : string;
  broker_id : nat
}.

(** [obj: Union["EventBroker", EndpointConfig, None]]. *)
Inductive CreateArg : Type :=
| ArgBroker (b : EventBroker)
| ArgConfig (c : EndpointConfig)
| ArgNone.

(** An event: [Dict[Text, Any]], an ordered mapping from field names to
    JSON-compatible values. *)
Inductive Json : Type :=
| JNull
| JBool (b : bool)
| JNum (n : nat)
| JStr (s : string).

Definition Event : Type := list (string * Json).

Inductive LogLevel : Type := DEBUG | INFO | WARNING | ERROR.

Record LogRecord : Type := mkLogRecord {
  levelname : LogLevel;
  message : string
}.

(** ** Computations *)

Section Factory.

(** [W] is the state of everything outside this module: open connections,
    files, loaded modules.  The factory never inspects it. *)
Variable W : Type.

(** What this module can observe: the outside world and the records handed to
    its own [logger = logging.getLogger(__name__)]. *)
Record State : Type := mkState {
  world : W;
  log : list LogRecord
}.

(** A computation of this module: it may change the state and either returns
    or raises. *)
Definition M (A : Type) : Type := State -> Result A * State.

(** A computation of another module: it acts on the outside world only. *)
Definition Ext (A : Type) : Type := W -> Result A * W.

Definition ret {A} (a : A) : M A := fun st => (Ok a, st).

Definition raise {A} (e : exn) : M A := fun st => (Raise e, st).

Definition bind {A B} (m : M A) (k : A -> M B) : M B :=
  fun st =>
    match m st with
    | (Ok a, st') => k a st'
    | (Raise e, st') => (Raise e, st')
    end.

Definition fmap {A B} (f : A -> B) (m : M A) : M B :=
  bind m (fun a => ret (f a)).

(** Calling into another module. *)
Definition call {A} (f : Ext A) : M A :=
  fun st =>
    match f (world st) with
    | (r, w') => (r, mkState w' (log st))
    end.

(** [try: body  except classes as e: handler e]. *)
Definition try_except {A} (body : M A) (classes : list ExcClass)
    (handler : exn -> M A) : M A :=
  fun st =>
    match body st with
    | (Ok a, st') => (Ok a, st')
    | (Raise e, st') =>
        if isinstance e classes then handler e st' else (Raise e, st')
    end.

(** [logger.warning(msg)]. *)
Definition logger_warning (msg : string) : M unit :=
  fun st => (Ok tt, mkState (world st) (log st ++ [mkLogRecord WARNING msg])).

Local Notation "x <- m ;; k" := (bind m (fun x => k))
  (at level 61, m at next level, right associativity).

(** ** Code of other modules *)

(** What [class_from_module_path] hands back: any object.  The factory only
    looks up its attribute [from_endpoint_config] and calls it; [describe] is
    how an [AttributeError] names the object (for a class [Foo]:
    [type object 'Foo']). *)
Record PyObject : Type := mkPyObject {
  describe : string;
  from_endpoint_config : option (EndpointConfig -> Ext EventBroker)
}.

(** The collaborators of the factory.  For each shipped broker the field
    stands for the local import of the class followed by the call of its
    classmethod [from_endpoint_config]. *)
Record Externals : Type := mkExternals {
  class_from_module_path : option string -> Ext PyObject;
  PikaEventBroker_from_endpoint_config : EndpointConfig -> Ext EventBroker;
  SQLEventBroker_from_endpoint_config : EndpointConfig -> Ext EventBroker;
  FileEventBroker_from_endpoint_config : EndpointConfig -> Ext EventBroker;
  KafkaEventBroker_from_endpoint_config : EndpointConfig -> Ext EventBroker
}.

Variable X : Externals.

(** [obj.from_endpoint_config]: the attribute, or [AttributeError]. *)
Definition getattr_from_endpoint_config (obj : PyObject)
    : M (EndpointConfig -> Ext EventBroker) :=
  match from_endpoint_config obj with
  | Some f => ret f
  | None =>
      raise (mkExn AttributeError
               (describe obj ++ " has no attribute 'from_endpoint_config'"))
  end.

(** [f"{t}"] for [t : Optional[Text]]. *)
Definition format_type (t : option string) : string :=
  match t with
  | Some s => s
  | None => "None"
  end.

(** ** The module *)

(** [EventBroker.from_endpoint_config] of the base class. *)
Definition EventBroker_from_endpoint_config (broker_config : EndpointConfig)
    : M EventBroker :=
  raise (mkExn NotImplementedError
           "Event broker must implement the `from_endpoint_config` method.").

(** [EventBroker.publish] of the base class. *)
Definition EventBroker_publish (self : EventBroker) (event : Event) : M unit :=
  raise (mkExn NotImplementedError
           "Event broker must implement the `publish` method.").

(** The text of the warning of [_load_from_module_string]. *)
Definition could_not_be_found (t : option string) (e : exn) : string :=
  "The `EventBroker` type '" ++ format_type t ++ "' could not be found. "
  ++ "Not using any event broker. Error: " ++ exc_str e.

(** Instantiate an event broker based on its class name.  Resolution,
    attribute lookup and construction all sit inside the [try]. *)
Definition _load_from_module_string (broker_config : EndpointConfig)
    : M (option EventBroker) :=
  try_except
    (event_broker_class <-
       call (class_from_module_path X (type broker_config)) ;;
     construct <- getattr_from_endpoint_config event_broker_class ;;
     fmap Some (call (construct broker_config)))
    [AttributeError; ImportError]
    (fun e =>
       _ <- logger_warning (could_not_be_found (type broker_config) e) ;;
       ret None).

(** Instantiate an event broker based on its configuration.  The outer
    [match] on [type] is the test [endpoint_config.type is None]; the chain of
    [if] is the chain of [elif] on [endpoint_config.type.lower()]. *)
Definition _create_from_endpoint_config
    (endpoint_config : option EndpointConfig) : M (option EventBroker) :=
  match endpoint_config with
  | None => ret None
  | Some cfg =>
      match type cfg with
      | None => fmap Some (call (PikaEventBroker_from_endpoint_config X cfg))
      | Some t =>
          if lower t =? "pika" then
            fmap Some (call (PikaEventBroker_from_endpoint_config X cfg))
          else if lower t =? "sql" then
            fmap Some (call (SQLEventBroker_from_endpoint_config X cfg))
          else if lower t =? "file" then
            fmap Some (call (FileEventBroker_from_endpoint_config X cfg))
          else if lower t =? "kafka" then
            fmap Some (call (KafkaEventBroker_from_endpoint_config X cfg))
          else
            _load_from_module_string cfg
      end
  end.

(** [EventBroker.create], the factory: an [EventBroker] instance is returned
    as it is, anything else goes to [_create_from_endpoint_config]. *)
Definition EventBroker_create (obj : CreateArg) : M (option EventBroker) :=
  match obj with
  | ArgBroker b => ret (Some b)
  | ArgConfig cfg => _create_from_endpoint_config (Some cfg)
  | ArgNone => _create_from_endpoint_config None
  end.

End Factory.

Arguments mkState {W}.
Arguments world {W}.
Arguments log {W}.
Arguments ret {W A}.
Arguments raise {W A}.
Arguments bind {W A B}.
Arguments fmap {W A B}.
Arguments call {W A}.
Arguments try_except {W A}.
Arguments logger_warning {W}.
Arguments mkPyObject {W}.
Arguments describe {W}.
Arguments from_endpoint_config {W}.
Arguments mkExternals {W}.
Arguments class_from_module_path {W}.
Arguments PikaEventBroker_from_endpoint_config {W}.
Arguments SQLEventBroker_from_endpoint_config {W}.
Arguments FileEventBroker_from_endpoint_config {W}.
Arguments KafkaEventBroker_from_endpoint_config {W}.
Arguments getattr_from_endpoint_config {W}.
Arguments EventBroker_from_endpoint_config {W}.
Arguments EventBroker_publish {W}.
Arguments _load_from_module_string {W}.
Arguments _create_from_endpoint_config {W}.
Arguments EventBroker_create {W}.

(** ** Vocabulary of the properties *)

(** The tag is none of the short names of the shipped brokers, whatever its
    letter casing. *)
Definition matches_no_builtin_tag (t : string) : Prop :=
  lower t <> "pika" /\ lower t <> "sql" /\ lower t <> "file"
  /\ lower t <> "kafka".

(** The exception classes [_load_from_module_string] recovers from. *)
Definition recovered : list ExcClass := [AttributeError; ImportError].

(** The two ways in which an adapter named [s] "could not be found" from the
    outside world [w]: [e] is the underlying cause and [w'] the world left
    behind.  Resolution signals failure with an import- or attribute-style
    error; a resolved object that has no [from_endpoint_config] fails the
    attribute lookup. *)
Inductive LoadFailure {W} (X : Externals W) (s : string) (w : W)
    : exn -> W -> Prop :=
| ResolutionFailure e w' :
    class_from_module_path X (Some s) w = (Raise e, w') ->
    isinstance e recovered = true ->
    LoadFailure X s w e w'
| ContractMismatch obj w' :
    class_from_module_path X (Some s) w = (Ok obj, w') ->
    from_endpoint_config obj = None ->
    LoadFailure X s w
      (mkExn AttributeError
         (describe obj ++ " has no attribute 'from_endpoint_config'")) w'.

(** The argument that stands for a value [create] returned. *)
Definition as_argument (r : option EventBroker) : CreateArg :=
  match r with
  | Some b => ArgBroker b
  | None => ArgNone
  end.

(** ** A sample deployment

    A small outside world on which the factory can be run: the world is the
    next free object identity, the shipped brokers construct without failing,
    and a handful of names resolve to user-defined adapters. *)
Module Sample.

Definition World : Type := nat.

Definition new_broker (cls : string) (_ : EndpointConfig)
    : Ext World EventBroker :=
  fun w => (Ok (mkEventBroker cls w), S w).

Definition failing (e : exn) (_ : EndpointConfig) : Ext World EventBroker :=
  fun w => (Raise e, w).

(** A well-behaved user adapter. *)
Definition MyBroker : PyObject World :=
  mkPyObject "type object 'MyBroker'" (Some (new_broker "MyBroker")).

(** A class without [from_endpoint_config]. *)
Definition NotABroker : PyObject World :=
  mkPyObject "type object 'NotABroker'" None.

(** An adapter that rejects its parameters. *)
Definition PickyBroker : PyObject World :=
  mkPyObject "type object 'PickyBroker'"
    (Some (failing (mkExn ValueError "port must be an integer"))).

(** An adapter whose constructor reads [broker_config.url.split] and so
    trips over a missing [url]. *)
Definition FragileBroker : PyObject World :=
  mkPyObject "type object 'FragileBroker'"
    (Some (fun cfg =>
             match url cfg with
             | Some _ => new_broker "FragileBroker" cfg
             | None =>
                 failing
                   (mkExn AttributeError
                      "'NoneType' object has no attribute 'split'") cfg
             end)).

(** An adapter whose constructor imports a client library that is not
    installed. *)
Definition LazyBroker : PyObject World :=
  mkPyObject "type object 'LazyBroker'"
    (Some (failing (mkExn ModuleNotFoundError "No module named 'boto3'"))).

(** The base class itself, reached by its full name. *)
Definition BaseBroker : PyObject World :=
  mkPyObject "type object 'EventBroker'"
    (Some (fun cfg w =>
             (fst (EventBroker_from_endpoint_config cfg (mkState w [])), w))).

Definition importable : list (string * PyObject World) :=
  [ ("my_pkg.brokers.MyBroker", MyBroker);
    ("my_pkg.brokers.NotABroker", NotABroker);
    ("my_pkg.brokers.PickyBroker", PickyBroker);
    ("my_pkg.brokers.FragileBroker", FragileBroker);
    ("my_pkg.brokers.LazyBroker", LazyBroker);
    ("rasa.core.brokers.broker.EventBroker", BaseBroker) ].

Definition resolve (module_path : option string) : Ext World (PyObject World) :=
  fun w =>
    match module_path with
    | None =>
        (Raise (mkExn TypeError "argument of type 'NoneType' is not iterable"),
         w)
    | Some path =>
        match find (fun entry => fst entry =? path) importable with
        | Some (_, obj) => (Ok obj, w)
        | None =>
            (Raise (mkExn ImportError
                      ("Cannot retrieve class from path " ++ path ++ ".")),
             w)
        end
    end.

Definition X : Externals World :=
  mkExternals resolve
    (new_broker "PikaEventBroker") (new_broker "SQLEventBroker")
    (new_broker "FileEventBroker") (new_broker "KafkaEventBroker").

Definition config (t : option string) : EndpointConfig :=
  mkEndpointConfig t None [].

Definition start : State World := mkState 0 [].

End Sample.

(** The tag is, in some letter casing, the short name of a shipped broker. *)
Definition names_shipped_broker (t : string) : Prop :=
  lower t = "pika" \/ lower t = "sql" \/ lower t = "file"
  \/ lower t = "kafka".

(** [from_endpoint_config] as a subclass of [EventBroker] has it when it does
    not override the classmethod: the body of the base class, which touches
    neither the log nor the outside world. *)
Definition inherited_from_endpoint_config {W} (broker_config : EndpointConfig)
    : Ext W EventBroker :=
  fun w =>
    (fst (EventBroker_from_endpoint_config broker_config (mkState w [])), w).

(** ** A deployment with an outage

    The same outside world as [Sample], except that the Kafka client library
    is not installed, so that constructing the Kafka broker fails on its
    import, and that the module path [.Broker], whose module part is empty, is
    refused with a [ValueError], as [importlib.import_module] does for an
    empty module name. *)
Module Outage.

Definition kafka_missing : exn :=
  mkExn ModuleNotFoundError "No module named 'kafka'".

Definition empty_module_name : exn := mkExn ValueError "Empty module name".

Definition resolve (module_path : option string)
    : Ext Sample.World (PyObject Sample.World) :=
  fun w =>
    match module_path with
    | Some path =>
        if path =? ".Broker" then (Raise empty_module_name, w)
        else Sample.resolve module_path w
    | None => Sample.resolve module_path w
    end.

Definition X : Externals Sample.World :=
  mkExternals resolve
    (Sample.new_broker "PikaEventBroker") (Sample.new_broker "SQLEventBroker")
    (Sample.new_broker "FileEventBroker") (Sample.failing kafka_missing).

End Outage.

(** * Properties *)

(** ** Text *)

Lemma string_app_nil_r (s : string) : s ++ "" = s.
Proof.
  induction s as [|c s IH]; simpl; [reflexivity | now rewrite IH].
Qed.

Lemma string_app_assoc (a b c : string) : (a ++ b) ++ c = a ++ b ++ c.
Proof.
  induction a as [|x a IH]; simpl; [reflexivity | now rewrite IH].
Qed.

Lemma lower_upper_ascii (c : ascii) :
  lower_ascii (upper_ascii c) = lower_ascii c.
Proof.
  destruct c as [b0 b1 b2 b3 b4 b5 b6 b7].
  destruct b0, b1, b2, b3, b4, b5, b6, b7; reflexivity.
Qed.

(** Lower-casing forgets the casing a string was written in. *)
Lemma lower_recase (mask : list bool) (s : string) :
  lower (recase mask s) = lower s.
Proof.
  revert mask.
  induction s as [|c s IH]; intros mask; simpl; [reflexivity|].
  destruct mask as [|b mask]; simpl; [reflexivity|].
  rewrite IH.
  destruct b; [now rewrite lower_upper_ascii | reflexivity].
Qed.

Lemma isascii_lower_ascii (c : ascii) :
  isascii_char (lower_ascii c) = isascii_char c.
Proof.
  destruct c as [b0 b1 b2 b3 b4 b5 b6 b7].
  destruct b0, b1, b2, b3, b4, b5, b6, b7; reflexivity.
Qed.

Lemma isascii_lower (s : string) : isascii (lower s) = isascii s.
Proof.
  induction s as [|c s IH]; simpl; [reflexivity|].
  now rewrite isascii_lower_ascii, IH.
Qed.

(** Only ASCII text lower-cases to ASCII text: the comparisons with the short
    names of the shipped brokers succeed on ASCII [type] strings only. *)
Lemma lower_to_ascii_is_ascii (s tag : string) :
  lower s = tag -> isascii tag = true -> isascii s = true.
Proof.
  intros <- Htag. now rewrite isascii_lower in Htag.
Qed.

Lemma contains_infix (before sub after : string) :
  contains sub (before ++ sub ++ after).
Proof. now exists before, after. Qed.

Lemma contains_suffix (before sub : string) : contains sub (before ++ sub).
Proof.
  exists before, "". now rewrite string_app_nil_r.
Qed.

(** The warning names the type it was given and ends with the cause. *)
Lemma could_not_be_found_mentions (s : string) (e : exn) :
  contains s (could_not_be_found (Some s) e)
  /\ contains (exc_str e) (could_not_be_found (Some s) e).
Proof.
  unfold could_not_be_found, format_type. split.
  - apply contains_infix.
  - rewrite <- !string_app_assoc. apply contains_suffix.
Qed.

(** ** Exceptions *)

(** A user-defined exception is recovered exactly when its parent is: the
    [except] clause follows inheritance. *)
Lemma recovered_follows_inheritance (name : string) (parent : ExcClass)
    (msg : string) :
  isinstance (mkExn (UserDefined name parent) msg) recovered
  = isinstance (mkExn parent msg) recovered.
Proof. reflexivity. Qed.

Example module_not_found_is_recovered (msg : string) :
  isinstance (mkExn ModuleNotFoundError msg) recovered = true.
Proof. reflexivity. Qed.

Example not_implemented_is_not_recovered (msg : string) :
  isinstance (mkExn NotImplementedError msg) recovered = false.
Proof. reflexivity. Qed.

(** ** The dynamic loader, case by case *)

Section Loader.

Context {W : Type} (X : Externals W).

Lemma load_resolution_raises cfg st e w' :
  class_from_module_path X (type cfg) (world st) = (Raise e, w') ->
  _load_from_module_string X cfg st =
    if isinstance e recovered
    then (Ok None,
          mkState w'
            (log st ++ [mkLogRecord WARNING (could_not_be_found (type cfg) e)]))
    else (Raise e, mkState w' (log st)).
Proof.
  intros Hres.
  unfold _load_from_module_string, try_except, bind, call, recovered.
  rewrite Hres. simpl.
  destruct (isinstance e [AttributeError; ImportError]); reflexivity.
Qed.

Lemma load_missing_attribute cfg st obj w' :
  class_from_module_path X (type cfg) (world st) = (Ok obj, w') ->
  from_endpoint_config obj = None ->
  _load_from_module_string X cfg st =
    (Ok None,
     mkState w'
       (log st ++
        [mkLogRecord WARNING
           (could_not_be_found (type cfg)
              (mkExn AttributeError
                 (describe obj ++ " has no attribute 'from_endpoint_config'")))])).
Proof.
  intros Hres Hattr.
  unfold _load_from_module_string, try_except, bind, call,
    getattr_from_endpoint_config.
  rewrite Hres. simpl. rewrite Hattr. reflexivity.
Qed.

Lemma load_constructs cfg st obj w1 f r w2 :
  class_from_module_path X (type cfg) (world st) = (Ok obj, w1) ->
  from_endpoint_config obj = Some f ->
  f cfg w1 = (r, w2) ->
  _load_from_module_string X cfg st =
    match r with
    | Ok b => (Ok (Some b), mkState w2 (log st))
    | Raise e =>
        if isinstance e recovered
        then (Ok None,
              mkState w2
                (log st ++
                 [mkLogRecord WARNING (could_not_be_found (type cfg) e)]))
        else (Raise e, mkState w2 (log st))
    end.
Proof.
  intros Hres Hattr Hcall.
  unfold _load_from_module_string, try_except, bind, fmap, bind, call,
    getattr_from_endpoint_config, recovered.
  rewrite Hres. simpl. rewrite Hattr. simpl. rewrite Hcall. simpl.
  destruct r as [b|e]; simpl; [reflexivity|].
  destruct (isinstance e [AttributeError; ImportError]); reflexivity.
Qed.

(** An ASCII tag that names no shipped broker is handed to the loader. *)
Lemma unknown_tag_is_loaded cfg t :
  type cfg = Some t ->
  isascii t = true ->
  matches_no_builtin_tag t ->
  _create_from_endpoint_config X (Some cfg) = _load_from_module_string X cfg.
Proof.
  intros Ht _ (Hp & Hs & Hf & Hk).
  unfold _create_from_endpoint_config. rewrite Ht.
  apply String.eqb_neq in Hp, Hs, Hf, Hk.
  now rewrite Hp, Hs, Hf, Hk.
Qed.

End Loader.

Ltac not_builtin :=
  unfold matches_no_builtin_tag;
  repeat match goal with |- _ /\ _ => split end;
  intros Heq; vm_compute in Heq; discriminate Heq.

(** ** The factory *)

(** C8.  Given [None], [create] returns [None]: nothing is constructed,
    nothing is logged and nothing is raised. *)
Theorem create_none_is_none {W} (X : Externals W) (st : State W) :
  EventBroker_create X ArgNone st = (Ok None, st).
Proof. reflexivity. Qed.

(** C5.  Given an event broker, [create] returns that very broker and leaves
    the state alone; therefore feeding [create] a value it returned gives the
    same value again. *)
Theorem create_passes_brokers_through {W} (X : Externals W) :
  (forall b st, EventBroker_create X (ArgBroker b) st = (Ok (Some b), st))
  /\ (forall obj st r st',
        EventBroker_create X obj st = (Ok r, st') ->
        EventBroker_create X (as_argument r) st' = (Ok r, st')).
Proof.
  split; [reflexivity|].
  intros obj st [b|] st' _; reflexivity.
Qed.

Lemma create_passes_brokers_through_witness :
  EventBroker_create Sample.X (ArgConfig (Sample.config (Some "Kafka")))
    Sample.start
  = (Ok (Some (mkEventBroker "KafkaEventBroker" 0)), mkState 1 [])
  /\ EventBroker_create Sample.X
       (ArgBroker (mkEventBroker "KafkaEventBroker" 0)) (mkState 1 [])
     = (Ok (Some (mkEventBroker "KafkaEventBroker" 0)), mkState 1 []).
Proof.
  split; [reflexivity|].
  apply (proj2 (create_passes_brokers_through Sample.X)
           (ArgConfig (Sample.config (Some "Kafka"))) Sample.start
           (Some (mkEventBroker "KafkaEventBroker" 0)) (mkState 1 [])).
  reflexivity.
Defined.

(** C3.  When [type] is [None] or lower-cases to ["pika"], [create] runs
    [PikaEventBroker.from_endpoint_config] on the config and returns what it
    returns: the broker it built, or the exception it raised. *)
Theorem absent_or_pika_constructs_pika {W} (X : Externals W) cfg :
  type cfg = None \/ (exists t, type cfg = Some t /\ lower t = "pika") ->
  (forall st,
     EventBroker_create X (ArgConfig cfg) st
     = fmap Some (call (PikaEventBroker_from_endpoint_config X cfg)) st)
  /\ (forall st b w',
        PikaEventBroker_from_endpoint_config X cfg (world st) = (Ok b, w') ->
        EventBroker_create X (ArgConfig cfg) st
        = (Ok (Some b), mkState w' (log st))).
Proof.
  intros Htype.
  assert (Heq : EventBroker_create X (ArgConfig cfg)
                = fmap Some (call (PikaEventBroker_from_endpoint_config X cfg))).
  { simpl. unfold _create_from_endpoint_config.
    destruct Htype as [Hnone | (t & Ht & Hlow)].
    - now rewrite Hnone.
    - rewrite Ht, Hlow. reflexivity. }
  split.
  - intros st. now rewrite Heq.
  - intros st b w' Hctor. rewrite Heq.
    unfold fmap, bind, call. now rewrite Hctor.
Qed.

Lemma absent_or_pika_constructs_pika_witness :
  EventBroker_create Sample.X (ArgConfig (Sample.config (Some "PiKa")))
    Sample.start
  = (Ok (Some (mkEventBroker "PikaEventBroker" 0)), mkState 1 [])
  /\ EventBroker_create Sample.X (ArgConfig (Sample.config None))
       (mkState 7 [])
     = (Ok (Some (mkEventBroker "PikaEventBroker" 7)), mkState 8 []).
Proof.
  split.
  - apply (proj2 (absent_or_pika_constructs_pika Sample.X
                    (Sample.config (Some "PiKa"))
                    (or_intror (ex_intro _ "PiKa" (conj eq_refl eq_refl))))
             Sample.start).
    reflexivity.
  - apply (proj2 (absent_or_pika_constructs_pika Sample.X
                    (Sample.config None) (or_introl eq_refl))
             (mkState 7 [])).
    reflexivity.
Defined.

(** C4.  When [type] lower-cases to ["sql"], ["file"] or ["kafka"], [create]
    runs the [from_endpoint_config] of [SQLEventBroker], [FileEventBroker] or
    [KafkaEventBroker] respectively and returns what it returns. *)
Theorem builtin_tags_dispatch {W} (X : Externals W) cfg t :
  type cfg = Some t ->
  (lower t = "sql" ->
   forall st,
     EventBroker_create X (ArgConfig cfg) st
     = fmap Some (call (SQLEventBroker_from_endpoint_config X cfg)) st)
  /\ (lower t = "file" ->
      forall st,
        EventBroker_create X (ArgConfig cfg) st
        = fmap Some (call (FileEventBroker_from_endpoint_config X cfg)) st)
  /\ (lower t = "kafka" ->
      forall st,
        EventBroker_create X (ArgConfig cfg) st
        = fmap Some (call (KafkaEventBroker_from_endpoint_config X cfg)) st).
Proof.
  intros Ht.
  split; [|split]; intros Hlow st; simpl;
    unfold _create_from_endpoint_config; rewrite Ht, Hlow; reflexivity.
Qed.

Lemma builtin_tags_dispatch_witness :
  EventBroker_create Sample.X
    (ArgConfig (Sample.config (Some (recase [true; true; true] "sql"))))
    Sample.start
  = (Ok (Some (mkEventBroker "SQLEventBroker" 0)), mkState 1 [])
  /\ EventBroker_create Sample.X (ArgConfig (Sample.config (Some "File")))
       Sample.start
     = (Ok (Some (mkEventBroker "FileEventBroker" 0)), mkState 1 [])
  /\ EventBroker_create Sample.X (ArgConfig (Sample.config (Some "kAfKa")))
       Sample.start
     = (Ok (Some (mkEventBroker "KafkaEventBroker" 0)), mkState 1 []).
Proof.
  split; [|split].
  - rewrite (proj1 (builtin_tags_dispatch Sample.X
                      (Sample.config (Some (recase [true; true; true] "sql")))
                      (recase [true; true; true] "sql") eq_refl)
               (lower_recase [true; true; true] "sql") Sample.start).
    reflexivity.
  - rewrite (proj1 (proj2 (builtin_tags_dispatch Sample.X
                             (Sample.config (Some "File")) "File" eq_refl))
               eq_refl Sample.start).
    reflexivity.
  - rewrite (proj2 (proj2 (builtin_tags_dispatch Sample.X
                             (Sample.config (Some "kAfKa")) "kAfKa" eq_refl))
               eq_refl Sample.start).
    reflexivity.
Defined.

(** C7.  When [type] is an ASCII string that lower-cases to none of
    ["pika"], ["sql"], ["file"], ["kafka"], [create] does not fail on the
    unknown tag: it asks [class_from_module_path] for the object that the
    [type] string, as written, names, looks up [from_endpoint_config] on that
    object and calls it on the config.  The broker so constructed is
    returned; an [AttributeError] or [ImportError] on the way gives the
    warning and [None]; any other error is raised. *)
Theorem unknown_tag_falls_through_to_loader {W} (X : Externals W) cfg t :
  type cfg = Some t ->
  isascii t = true ->
  matches_no_builtin_tag t ->
  forall st,
    EventBroker_create X (ArgConfig cfg) st
    = match class_from_module_path X (Some t) (world st) with
      | (Ok obj, w1) =>
          match from_endpoint_config obj with
          | Some construct =>
              match construct cfg w1 with
              | (Ok b, w2) => (Ok (Some b), mkState w2 (log st))
              | (Raise e, w2) =>
                  if isinstance e recovered
                  then (Ok None,
                        mkState w2
                          (log st ++
                           [mkLogRecord WARNING
                              (could_not_be_found (Some t) e)]))
                  else (Raise e, mkState w2 (log st))
              end
          | None =>
              (Ok None,
               mkState w1
                 (log st ++
                  [mkLogRecord WARNING
                     (could_not_be_found (Some t)
                        (mkExn AttributeError
                           (describe obj
                            ++ " has no attribute 'from_endpoint_config'")))]))
          end
      | (Raise e, w1) =>
          if isinstance e recovered
          then (Ok None,
                mkState w1
                  (log st ++
                   [mkLogRecord WARNING (could_not_be_found (Some t) e)]))
          else (Raise e, mkState w1 (log st))
      end.
Proof.
  intros Ht Hascii Hno st. unfold EventBroker_create.
  rewrite (unknown_tag_is_loaded X cfg t Ht Hascii Hno).
  rewrite <- Ht.
  destruct (class_from_module_path X (type cfg) (world st))
    as [[obj|e] w1] eqn:Hres.
  - destruct (from_endpoint_config obj) as [f|] eqn:Hattr.
    + destruct (f cfg w1) as [r w2] eqn:Hcall.
      rewrite (load_constructs X cfg st obj w1 f r w2 Hres Hattr Hcall).
      destruct r; reflexivity.
    + apply (load_missing_attribute X cfg st obj w1 Hres Hattr).
  - apply (load_resolution_raises X cfg st e w1 Hres).
Qed.

Lemma unknown_tag_falls_through_to_loader_witness :
  EventBroker_create Sample.X
    (ArgConfig (Sample.config (Some "my_pkg.brokers.MyBroker"))) Sample.start
  = (Ok (Some (mkEventBroker "MyBroker" 0)), mkState 1 []).
Proof.
  rewrite (unknown_tag_falls_through_to_loader Sample.X
             (Sample.config (Some "my_pkg.brokers.MyBroker"))
             "my_pkg.brokers.MyBroker" eq_refl eq_refl ltac:(not_builtin)
             Sample.start).
  reflexivity.
Defined.

(** ** Failures of the dynamic loader *)

(** C1, as the claim has it, fails: the identifier [.Broker] names no shipped
    broker and cannot be resolved, its resolution raising a [ValueError] for
    the empty module name; [create] lets this error reach the caller, returns
    nothing and logs no warning. *)
Lemma unresolvable_identifier_error_escapes :
  type (Sample.config (Some ".Broker")) = Some ".Broker"
  /\ isascii ".Broker" = true
  /\ matches_no_builtin_tag ".Broker"
  /\ class_from_module_path Outage.X (Some ".Broker") 0
     = (Raise (mkExn ValueError "Empty module name"), 0)
  /\ EventBroker_create Outage.X (ArgConfig (Sample.config (Some ".Broker")))
       Sample.start
     = (Raise (mkExn ValueError "Empty module name"), mkState 0 [])
  /\ fst (EventBroker_create Outage.X
            (ArgConfig (Sample.config (Some ".Broker"))) Sample.start)
     <> Ok None.
Proof.
  split; [reflexivity|].
  split; [reflexivity|].
  split; [not_builtin|].
  split; [reflexivity|].
  split; [reflexivity|].
  intros Heq. vm_compute in Heq. discriminate Heq.
Qed.

(** C1, amended.  When [type] is an ASCII string that names no shipped broker
    and either its resolution raises an [ImportError] or an [AttributeError]
    (or an error of a subclass of one of them), or it resolves to an object
    without [from_endpoint_config], [create] returns [None], raises nothing,
    and adds exactly one record to the log: a warning whose text contains the
    [type] string and the text of the underlying error. *)
Theorem load_failure_gives_none_and_one_warning {W} (X : Externals W)
    cfg t st e w' :
  type cfg = Some t ->
  isascii t = true ->
  matches_no_builtin_tag t ->
  LoadFailure X t (world st) e w' ->
  exists msg,
    EventBroker_create X (ArgConfig cfg) st
    = (Ok None, mkState w' (log st ++ [mkLogRecord WARNING msg]))
    /\ contains t msg
    /\ contains (exc_str e) msg.
Proof.
  intros Ht Hascii Hno Hfail.
  exists (could_not_be_found (Some t) e).
  split; [|apply could_not_be_found_mentions].
  unfold EventBroker_create.
  rewrite (unknown_tag_is_loaded X cfg t Ht Hascii Hno).
  destruct Hfail as [e w' Hres Hrec | obj w' Hres Hattr];
    rewrite <- Ht in Hres |- *.
  - rewrite (load_resolution_raises X cfg st e w' Hres). now rewrite Hrec.
  - apply (load_missing_attribute X cfg st obj w' Hres Hattr).
Qed.

Lemma load_failure_gives_none_and_one_warning_witness :
  exists msg,
    EventBroker_create Sample.X
      (ArgConfig (Sample.config (Some "not.a.real.Module"))) Sample.start
    = (Ok None, mkState 0 [mkLogRecord WARNING msg])
    /\ contains "not.a.real.Module" msg
    /\ contains "Cannot retrieve class from path not.a.real.Module." msg.
Proof.
  apply (load_failure_gives_none_and_one_warning Sample.X
           (Sample.config (Some "not.a.real.Module")) "not.a.real.Module"
           Sample.start
           (mkExn ImportError
              "Cannot retrieve class from path not.a.real.Module.") 0
           eq_refl eq_refl).
  - not_builtin.
  - apply ResolutionFailure; reflexivity.
Defined.

(** The same on a class that resolves but has no [from_endpoint_config]. *)
Example contract_mismatch_is_absence :
  EventBroker_create Sample.X
    (ArgConfig (Sample.config (Some "my_pkg.brokers.NotABroker")))
    Sample.start
  = (Ok None,
     mkState 0
       [mkLogRecord WARNING
          ("The `EventBroker` type 'my_pkg.brokers.NotABroker' could not "
           ++ "be found. Not using any event broker. Error: type object "
           ++ "'NotABroker' has no attribute 'from_endpoint_config'")]).
Proof. reflexivity. Qed.

(** C2, as the claim has it, fails: [my_pkg.brokers.FragileBroker] resolves
    and has a [from_endpoint_config], its construction raises an
    [AttributeError], and [create] returns [None] with a warning instead of
    letting the error reach the caller. *)
Lemma construction_attribute_error_is_swallowed :
  type (Sample.config (Some "my_pkg.brokers.FragileBroker"))
  = Some "my_pkg.brokers.FragileBroker"
  /\ matches_no_builtin_tag "my_pkg.brokers.FragileBroker"
  /\ class_from_module_path Sample.X (Some "my_pkg.brokers.FragileBroker") 0
     = (Ok Sample.FragileBroker, 0)
  /\ (exists f,
        from_endpoint_config Sample.FragileBroker = Some f
        /\ f (Sample.config (Some "my_pkg.brokers.FragileBroker")) 0
           = (Raise (mkExn AttributeError
                       "'NoneType' object has no attribute 'split'"), 0))
  /\ EventBroker_create Sample.X
       (ArgConfig (Sample.config (Some "my_pkg.brokers.FragileBroker")))
       Sample.start
     = (Ok None,
        mkState 0
          [mkLogRecord WARNING
             ("The `EventBroker` type 'my_pkg.brokers.FragileBroker' could "
              ++ "not be found. Not using any event broker. Error: "
              ++ "'NoneType' object has no attribute 'split'")])
  /\ EventBroker_create Sample.X
       (ArgConfig (Sample.config (Some "my_pkg.brokers.FragileBroker")))
       Sample.start
     <> (Raise (mkExn AttributeError
                  "'NoneType' object has no attribute 'split'"),
         mkState 0 []).
Proof.
  split; [reflexivity|].
  split; [not_builtin|].
  split; [reflexivity|].
  split; [eexists; split; reflexivity|].
  split; [reflexivity|].
  intros Heq. vm_compute in Heq. discriminate Heq.
Qed.

(** C2, amended.  When [type], an ASCII string, names no shipped broker and
    resolves to an
    object that has [from_endpoint_config], an error raised by that
    construction reaches the caller unless it is an [AttributeError] or an
    [ImportError] (or of a subclass of one of them); those are recovered like
    a failed resolution: one warning and [None]. *)
Theorem construction_error_propagates_unless_recovered {W} (X : Externals W)
    cfg t st obj w1 f e w2 :
  type cfg = Some t ->
  isascii t = true ->
  matches_no_builtin_tag t ->
  class_from_module_path X (Some t) (world st) = (Ok obj, w1) ->
  from_endpoint_config obj = Some f ->
  f cfg w1 = (Raise e, w2) ->
  (isinstance e recovered = false ->
   EventBroker_create X (ArgConfig cfg) st = (Raise e, mkState w2 (log st)))
  /\ (isinstance e recovered = true ->
      EventBroker_create X (ArgConfig cfg) st
      = (Ok None,
         mkState w2
           (log st ++ [mkLogRecord WARNING (could_not_be_found (Some t) e)]))).
Proof.
  intros Ht Hascii Hno Hres Hattr Hcall.
  unfold EventBroker_create.
  rewrite (unknown_tag_is_loaded X cfg t Ht Hascii Hno).
  rewrite <- Ht in Hres |- *.
  rewrite (load_constructs X cfg st obj w1 f (Raise e) w2 Hres Hattr Hcall).
  split; intros Hrec; now rewrite Hrec.
Qed.

Lemma construction_error_propagates_unless_recovered_witness :
  EventBroker_create Sample.X
    (ArgConfig (Sample.config (Some "my_pkg.brokers.PickyBroker")))
    Sample.start
  = (Raise (mkExn ValueError "port must be an integer"), mkState 0 []).
Proof.
  apply (proj1 (construction_error_propagates_unless_recovered Sample.X
                  (Sample.config (Some "my_pkg.brokers.PickyBroker"))
                  "my_pkg.brokers.PickyBroker" Sample.start
                  Sample.PickyBroker 0
                  (Sample.failing (mkExn ValueError "port must be an integer"))
                  (mkExn ValueError "port must be an integer") 0
                  eq_refl eq_refl ltac:(not_builtin)
                  eq_refl eq_refl eq_refl)).
  reflexivity.
Defined.

(** An import error inside a constructor is recovered as well. *)
Example construction_import_error_is_swallowed :
  EventBroker_create Sample.X
    (ArgConfig (Sample.config (Some "my_pkg.brokers.LazyBroker")))
    Sample.start
  = (Ok None,
     mkState 0
       [mkLogRecord WARNING
          ("The `EventBroker` type 'my_pkg.brokers.LazyBroker' could not "
           ++ "be found. Not using any event broker. Error: "
           ++ "No module named 'boto3'")]).
Proof. reflexivity. Qed.

(** ** The default adapter *)

(** C6, as the claim has it, fails on the empty tag: with [type = ""] the
    factory does not construct the Pika broker although that construction
    would succeed; the empty string goes to the loader, which cannot resolve
    it. *)
Lemma empty_type_is_not_defaulted :
  EventBroker_create Sample.X (ArgConfig (Sample.config (Some "")))
    Sample.start
  = (Ok None,
     mkState 0
       [mkLogRecord WARNING
          ("The `EventBroker` type '' could not be found. "
           ++ "Not using any event broker. "
           ++ "Error: Cannot retrieve class from path .")])
  /\ fmap Some
       (call (PikaEventBroker_from_endpoint_config Sample.X
                (Sample.config (Some ""))))
       Sample.start
     = (Ok (Some (mkEventBroker "PikaEventBroker" 0)), mkState 1 [])
  /\ EventBroker_create Sample.X (ArgConfig (Sample.config (Some "")))
       Sample.start
     <> fmap Some
          (call (PikaEventBroker_from_endpoint_config Sample.X
                   (Sample.config (Some ""))))
          Sample.start.
Proof.
  split; [reflexivity|].
  split; [reflexivity|].
  intros Heq. vm_compute in Heq. discriminate Heq.
Qed.

(** C6, amended.  When [type] is [None], [create] constructs the Pika broker.
    The empty string is not taken for a missing [type]: it is handed to
    [_load_from_module_string] like any other tag that names no shipped
    broker. *)
Theorem absent_type_defaults_to_pika_empty_type_is_loaded {W}
    (X : Externals W) cfg :
  (type cfg = None ->
   forall st,
     EventBroker_create X (ArgConfig cfg) st
     = fmap Some (call (PikaEventBroker_from_endpoint_config X cfg)) st)
  /\ (type cfg = Some "" ->
      forall st,
        EventBroker_create X (ArgConfig cfg) st
        = _load_from_module_string X cfg st).
Proof.
  split; intros Ht st; unfold EventBroker_create, _create_from_endpoint_config;
    now rewrite Ht.
Qed.

Lemma absent_type_defaults_to_pika_empty_type_is_loaded_witness :
  EventBroker_create Sample.X (ArgConfig (Sample.config None)) Sample.start
  = fmap Some
      (call (PikaEventBroker_from_endpoint_config Sample.X
               (Sample.config None)))
      Sample.start
  /\ EventBroker_create Sample.X (ArgConfig (Sample.config (Some "")))
       Sample.start
     = _load_from_module_string Sample.X (Sample.config (Some ""))
         Sample.start.
Proof.
  split.
  - apply (proj1 (absent_type_defaults_to_pika_empty_type_is_loaded Sample.X
                    (Sample.config None)) eq_refl Sample.start).
  - apply (proj2 (absent_type_defaults_to_pika_empty_type_is_loaded Sample.X
                    (Sample.config (Some ""))) eq_refl Sample.start).
Defined.

(** ** The base class *)

(** C9.  Both operations of the base class raise [NotImplementedError]
    whatever they are given; neither ever returns a value, and neither touches
    the state. *)
Theorem base_broker_is_not_implemented {W} :
  (forall cfg (st : State W),
     EventBroker_from_endpoint_config cfg st
     = (Raise
          (mkExn NotImplementedError
             "Event broker must implement the `from_endpoint_config` method."),
        st)
     /\ forall b st', EventBroker_from_endpoint_config cfg st <> (Ok b, st'))
  /\ (forall self event (st : State W),
        EventBroker_publish self event st
        = (Raise
             (mkExn NotImplementedError
                "Event broker must implement the `publish` method."),
           st)
        /\ forall u st', EventBroker_publish self event st <> (Ok u, st')).
Proof.
  split; intros; (split; [reflexivity | intros; discriminate]).
Qed.

(** A [NotImplementedError] is not among the errors the loader recovers from:
    naming the base class as the adapter lets it reach the caller. *)
Example base_class_as_adapter_raises :
  EventBroker_create Sample.X
    (ArgConfig (Sample.config (Some "rasa.core.brokers.broker.EventBroker")))
    Sample.start
  = (Raise
       (mkExn NotImplementedError
          "Event broker must implement the `from_endpoint_config` method."),
     Sample.start).
Proof. reflexivity. Qed.

(** ** The identifier *)

(** C10.  For an ASCII [type] that names no shipped broker, lower-casing
    served the
    comparison with the short names only.  What [create] does depends on
    [class_from_module_path] at the [type] string as written and nowhere else,
    and the warning of a failed resolution quotes that same string. *)
Theorem loader_gets_the_type_as_written {W} (X : Externals W) cfg t :
  type cfg = Some t ->
  isascii t = true ->
  matches_no_builtin_tag t ->
  (forall (X' : Externals W) st,
     class_from_module_path X' (Some t) (world st)
     = class_from_module_path X (Some t) (world st) ->
     EventBroker_create X' (ArgConfig cfg) st
     = EventBroker_create X (ArgConfig cfg) st)
  /\ (forall st e w',
        class_from_module_path X (Some t) (world st) = (Raise e, w') ->
        isinstance e recovered = true ->
        EventBroker_create X (ArgConfig cfg) st
        = (Ok None,
           mkState w'
             (log st ++
              [mkLogRecord WARNING
                 ("The `EventBroker` type '" ++ t
                  ++ "' could not be found. Not using any event broker. Error: "
                  ++ exc_str e)]))).
Proof.
  intros Ht Hascii Hno. split.
  - intros X' st Hsame.
    unfold EventBroker_create.
    rewrite (unknown_tag_is_loaded X cfg t Ht Hascii Hno),
      (unknown_tag_is_loaded X' cfg t Ht Hascii Hno).
    unfold _load_from_module_string, try_except, bind, call.
    rewrite Ht, Hsame. reflexivity.
  - intros st e w' Hres Hrec.
    unfold EventBroker_create.
    rewrite (unknown_tag_is_loaded X cfg t Ht Hascii Hno).
    rewrite <- Ht in Hres.
    rewrite (load_resolution_raises X cfg st e w' Hres), Hrec, Ht.
    reflexivity.
Qed.

Lemma loader_gets_the_type_as_written_witness :
  EventBroker_create Sample.X
    (ArgConfig (Sample.config (Some "My_Pkg.Brokers.MyBroker"))) Sample.start
  = (Ok None,
     mkState 0
       [mkLogRecord WARNING
          ("The `EventBroker` type 'My_Pkg.Brokers.MyBroker' could not be "
           ++ "found. Not using any event broker. Error: Cannot retrieve "
           ++ "class from path My_Pkg.Brokers.MyBroker.")]).
Proof.
  apply (proj2 (loader_gets_the_type_as_written Sample.X
                  (Sample.config (Some "My_Pkg.Brokers.MyBroker"))
                  "My_Pkg.Brokers.MyBroker" eq_refl eq_refl
                  ltac:(not_builtin))
           Sample.start
           (mkExn ImportError
              "Cannot retrieve class from path My_Pkg.Brokers.MyBroker.") 0);
    reflexivity.
Defined.

(** The adapter [my_pkg.brokers.MyBroker] is found under its mixed-case name,
    under which alone it can be imported; its lower-cased name resolves to
    nothing. *)
Example mixed_case_adapter_is_found :
  EventBroker_create Sample.X
    (ArgConfig (Sample.config (Some "my_pkg.brokers.MyBroker"))) Sample.start
  = (Ok (Some (mkEventBroker "MyBroker" 0)), mkState 1 [])
  /\ fst (class_from_module_path Sample.X
            (Some (lower "my_pkg.brokers.MyBroker")) 0)
     = Raise (mkExn ImportError
                "Cannot retrieve class from path my_pkg.brokers.mybroker.").
Proof. split; reflexivity. Qed.

(** * Further properties of the module *)

(** ** What the loader does to the log *)

Section LoaderOutcomes.

Context {W : Type} (X : Externals W).



(** Whatever the loader raises is not an error it recovers from. *)
Lemma load_raises_unrecovered cfg st e st' :
  _load_from_module_string X cfg st = (Raise e, st') ->
  isinstance e recovered = false.
Proof.
  unfold _load_from_module_string, try_except, recovered.
  match goal with
  | |- context [match ?body st with _ => _ end] =>
      destruct (body st) as [[r|e0] st0]
  end.
  - discriminate.
  - destruct (isinstance e0 [AttributeError; ImportError]) eqn:Hrec.
    + unfold bind, logger_warning, ret. discriminate.
    + intros Heq. injection Heq as <- _. exact Hrec.
Qed.

End LoaderOutcomes.

(** ** The dynamic loader *)

(** X1.  When [type], an ASCII string, names no shipped broker, resolves to
    an object that has
    [from_endpoint_config], and that construction returns a broker, [create]
    returns this broker, leaves the outside world as the construction left it
    and logs nothing. *)
Theorem resolved_adapter_is_constructed {W} (X : Externals W)
    cfg t st obj w1 f b w2 :
  type cfg = Some t ->
  isascii t = true ->
  matches_no_builtin_tag t ->
  class_from_module_path X (Some t) (world st) = (Ok obj, w1) ->
  from_endpoint_config obj = Some f ->
  f cfg w1 = (Ok b, w2) ->
  EventBroker_create X (ArgConfig cfg) st = (Ok (Some b), mkState w2 (log st)).
Proof.
  intros Ht Hascii Hno Hres Hattr Hcall.
  unfold EventBroker_create.
  rewrite (unknown_tag_is_loaded X cfg t Ht Hascii Hno).
  rewrite <- Ht in Hres.
  now rewrite (load_constructs X cfg st obj w1 f (Ok b) w2 Hres Hattr Hcall).
Qed.

Lemma resolved_adapter_is_constructed_witness :
  EventBroker_create Sample.X
    (ArgConfig (Sample.config (Some "my_pkg.brokers.MyBroker")))
    (mkState 4 [mkLogRecord WARNING "earlier"])
  = (Ok (Some (mkEventBroker "MyBroker" 4)),
     mkState 5 [mkLogRecord WARNING "earlier"]).
Proof.
  apply (resolved_adapter_is_constructed Sample.X
           (Sample.config (Some "my_pkg.brokers.MyBroker"))
           "my_pkg.brokers.MyBroker"
           (mkState 4 [mkLogRecord WARNING "earlier"])
           Sample.MyBroker 4 (Sample.new_broker "MyBroker")
           (mkEventBroker "MyBroker" 4) 5
           eq_refl eq_refl ltac:(not_builtin) eq_refl eq_refl eq_refl).
Defined.

(** X2.  When [type], an ASCII string, names no shipped broker and its
    resolution raises an
    error that is neither an [AttributeError] nor an [ImportError], [create]
    raises that error and logs nothing. *)
Theorem other_resolution_errors_propagate {W} (X : Externals W)
    cfg t st e w' :
  type cfg = Some t ->
  isascii t = true ->
  matches_no_builtin_tag t ->
  class_from_module_path X (Some t) (world st) = (Raise e, w') ->
  isinstance e recovered = false ->
  EventBroker_create X (ArgConfig cfg) st = (Raise e, mkState w' (log st)).
Proof.
  intros Ht Hascii Hno Hres Hrec.
  unfold EventBroker_create.
  rewrite (unknown_tag_is_loaded X cfg t Ht Hascii Hno).
  rewrite <- Ht in Hres.
  now rewrite (load_resolution_raises X cfg st e w' Hres), Hrec.
Qed.

Lemma other_resolution_errors_propagate_witness :
  EventBroker_create Outage.X (ArgConfig (Sample.config (Some ".Broker")))
    Sample.start
  = (Raise (mkExn ValueError "Empty module name"), mkState 0 []).
Proof.
  apply (other_resolution_errors_propagate Outage.X
           (Sample.config (Some ".Broker")) ".Broker" Sample.start
           Outage.empty_module_name 0
           eq_refl eq_refl ltac:(not_builtin) eq_refl eq_refl).
Defined.

(** X3.  On the loader path no [AttributeError] and no [ImportError] ever
    reaches the caller: whatever [create] raises for an ASCII [type] that
    names no shipped broker is of neither class, nor of a subclass of
    them. *)
Theorem loader_path_never_raises_recovered {W} (X : Externals W)
    cfg t st e st' :
  type cfg = Some t ->
  isascii t = true ->
  matches_no_builtin_tag t ->
  EventBroker_create X (ArgConfig cfg) st = (Raise e, st') ->
  isinstance e recovered = false.
Proof.
  intros Ht Hascii Hno.
  unfold EventBroker_create.
  rewrite (unknown_tag_is_loaded X cfg t Ht Hascii Hno).
  apply load_raises_unrecovered.
Qed.

Lemma loader_path_never_raises_recovered_witness :
  isinstance (mkExn ValueError "port must be an integer") recovered = false.
Proof.
  apply (loader_path_never_raises_recovered Sample.X
           (Sample.config (Some "my_pkg.brokers.PickyBroker"))
           "my_pkg.brokers.PickyBroker" Sample.start
           (mkExn ValueError "port must be an integer") (mkState 0 [])
           eq_refl eq_refl ltac:(not_builtin) eq_refl).
Defined.

(** X7.  An adapter, named by an ASCII [type], that relies on the
    [from_endpoint_config] it inherits from [EventBroker] cannot be created:
    [create] raises the [NotImplementedError] of the base class and logs
    nothing. *)
Theorem inherited_constructor_is_not_implemented {W} (X : Externals W)
    cfg t st obj w1 :
  type cfg = Some t ->
  isascii t = true ->
  matches_no_builtin_tag t ->
  class_from_module_path X (Some t) (world st) = (Ok obj, w1) ->
  from_endpoint_config obj = Some inherited_from_endpoint_config ->
  EventBroker_create X (ArgConfig cfg) st
  = (Raise
       (mkExn NotImplementedError
          "Event broker must implement the `from_endpoint_config` method."),
     mkState w1 (log st)).
Proof.
  intros Ht Hascii Hno Hres Hattr.
  unfold EventBroker_create.
  rewrite (unknown_tag_is_loaded X cfg t Ht Hascii Hno).
  rewrite <- Ht in Hres.
  now rewrite (load_constructs X cfg st obj w1 _ _ w1 Hres Hattr eq_refl).
Qed.

Lemma inherited_constructor_is_not_implemented_witness :
  EventBroker_create Sample.X
    (ArgConfig (Sample.config (Some "rasa.core.brokers.broker.EventBroker")))
    Sample.start
  = (Raise
       (mkExn NotImplementedError
          "Event broker must implement the `from_endpoint_config` method."),
     mkState 0 []).
Proof.
  apply (inherited_constructor_is_not_implemented Sample.X
           (Sample.config (Some "rasa.core.brokers.broker.EventBroker"))
           "rasa.core.brokers.broker.EventBroker" Sample.start
           Sample.BaseBroker 0
           eq_refl eq_refl ltac:(not_builtin) eq_refl eq_refl).
Defined.

(** ** The shipped brokers *)

(** X4.  Constructing a shipped broker is not guarded: whatever the chosen
    constructor raises, an [ImportError] or [AttributeError] included, reaches
    the caller, and nothing is logged. *)
Theorem shipped_constructor_errors_propagate {W} (X : Externals W)
    cfg st e w' :
  (type cfg = None \/ (exists t, type cfg = Some t /\ lower t = "pika") ->
   PikaEventBroker_from_endpoint_config X cfg (world st) = (Raise e, w') ->
   EventBroker_create X (ArgConfig cfg) st = (Raise e, mkState w' (log st)))
  /\ (forall t,
        type cfg = Some t -> lower t = "sql" ->
        SQLEventBroker_from_endpoint_config X cfg (world st) = (Raise e, w') ->
        EventBroker_create X (ArgConfig cfg) st
        = (Raise e, mkState w' (log st)))
  /\ (forall t,
        type cfg = Some t -> lower t = "file" ->
        FileEventBroker_from_endpoint_config X cfg (world st) = (Raise e, w') ->
        EventBroker_create X (ArgConfig cfg) st
        = (Raise e, mkState w' (log st)))
  /\ (forall t,
        type cfg = Some t -> lower t = "kafka" ->
        KafkaEventBroker_from_endpoint_config X cfg (world st)
        = (Raise e, w') ->
        EventBroker_create X (ArgConfig cfg) st
        = (Raise e, mkState w' (log st))).
Proof.
  unfold EventBroker_create, _create_from_endpoint_config.
  split; [|split; [|split]].
  - intros [Hnone | (t & Ht & Hlow)] Hctor.
    + rewrite Hnone. unfold fmap, bind, call. now rewrite Hctor.
    + rewrite Ht, Hlow. simpl. unfold fmap, bind, call. now rewrite Hctor.
  - intros t Ht Hlow Hctor. rewrite Ht, Hlow. simpl.
    unfold fmap, bind, call. now rewrite Hctor.
  - intros t Ht Hlow Hctor. rewrite Ht, Hlow. simpl.
    unfold fmap, bind, call. now rewrite Hctor.
  - intros t Ht Hlow Hctor. rewrite Ht, Hlow. simpl.
    unfold fmap, bind, call. now rewrite Hctor.
Qed.

Lemma shipped_constructor_errors_propagate_witness :
  EventBroker_create Outage.X (ArgConfig (Sample.config (Some "Kafka")))
    Sample.start
  = (Raise (mkExn ModuleNotFoundError "No module named 'kafka'"),
     mkState 0 [])
  /\ isinstance (mkExn ModuleNotFoundError "No module named 'kafka'")
       recovered = true.
Proof.
  split; [|reflexivity].
  apply (proj2 (proj2 (proj2
           (shipped_constructor_errors_propagate Outage.X
              (Sample.config (Some "Kafka")) Sample.start
              Outage.kafka_missing 0)))
           "Kafka" eq_refl eq_refl eq_refl).
Defined.

(** X5.  A [type] that is missing or names a shipped broker is never resolved
    as a module path: the outcome of [create] is the same whatever
    [class_from_module_path] would do, so no importable module can take the
    place of a shipped broker. *)
Theorem shipped_tags_are_never_resolved {W}
    (resolve resolve' : option string -> Ext W (PyObject W))
    (pika sql file kafka : EndpointConfig -> Ext W EventBroker) cfg :
  (forall t, type cfg = Some t -> names_shipped_broker t) ->
  forall st,
    EventBroker_create (mkExternals resolve pika sql file kafka)
      (ArgConfig cfg) st
    = EventBroker_create (mkExternals resolve' pika sql file kafka)
        (ArgConfig cfg) st.
Proof.
  intros Hshipped st.
  unfold EventBroker_create, _create_from_endpoint_config.
  destruct (type cfg) as [t|]; [|reflexivity].
  destruct (Hshipped t eq_refl) as [Hlow | [Hlow | [Hlow | Hlow]]];
    rewrite Hlow; reflexivity.
Qed.

Lemma shipped_tags_are_never_resolved_witness :
  EventBroker_create
    (mkExternals Sample.resolve
       (Sample.new_broker "PikaEventBroker")
       (Sample.new_broker "SQLEventBroker")
       (Sample.new_broker "FileEventBroker")
       (Sample.new_broker "KafkaEventBroker"))
    (ArgConfig (Sample.config (Some "SQL"))) Sample.start
  = EventBroker_create
      (mkExternals (fun _ w => (Ok Sample.MyBroker, w))
         (Sample.new_broker "PikaEventBroker")
         (Sample.new_broker "SQLEventBroker")
         (Sample.new_broker "FileEventBroker")
         (Sample.new_broker "KafkaEventBroker"))
      (ArgConfig (Sample.config (Some "SQL"))) Sample.start.
Proof.
  apply (shipped_tags_are_never_resolved
           Sample.resolve (fun _ w => (Ok Sample.MyBroker, w))
           (Sample.new_broker "PikaEventBroker")
           (Sample.new_broker "SQLEventBroker")
           (Sample.new_broker "FileEventBroker")
           (Sample.new_broker "KafkaEventBroker")
           (Sample.config (Some "SQL"))).
  intros t Ht. injection Ht as <-.
  right. left. reflexivity.
Defined.

(** ** The log *)


